(** * Manual error reporting: [reportManualError]

    A shallow embedding of the manual report handler (the function
    [reportManualError] produced by [handlerSetup (client, config, logger)])
    and the properties of its argument resolution, payload handling and
    dispatch. *)

From Stdlib Require Import ZArith Ascii String.
From stdpp Require Import base strings gmap list pretty.

Local Open Scope string_scope.

(** ** JavaScript values, as far as the handler inspects them *)

(** Identities of functions and of plain objects: the handler never calls the
    former and never reads the latter, it only passes them on. *)
Definition fnref := nat.
Definition objref := nat.
(** Addresses of [ErrorMessage] instances in the store. *)
Definition loc := nat.

Inductive value : Type :=
  | VUndefined
  | VNull
  | VBoolean (b : bool)
  | VNumber (n : Z)
  | VString (s : string)
  | VFunction (f : fnref)
  | VObject (o : objref)
  | VError (msg : string)
  | VSymbol (y : nat)
  | VErrorMessage (l : loc).

(** The three predicates of the [is] package the source uses.  They look at
    the class of the value only ([Object.prototype.toString]): an [Error] is
    not an [is.object], an instance of the [ErrorMessage] class is. *)
Definition isString (v : value) : bool :=
  match v with VString _ => true | _ => false end.

Definition isFunction (v : value) : bool :=
  match v with VFunction _ => true | _ => false end.

Definition isObject (v : value) : bool :=
  match v with VObject _ | VErrorMessage _ => true | _ => false end.

(** ** The optional parameters of [reportManualError]

    [request], [additionalMessage] and [callback] are ordinary local
    variables that the first lines of the function reassign.  An argument the
    caller leaves out is [VUndefined]. *)
Record locals : Type := Locals {
  request : value;
  additionalMessage : value;
  callback : value
}.

Definition set_request (v : value) (a : locals) : locals :=
  Locals v (additionalMessage a) (callback a).
Definition set_additionalMessage (v : value) (a : locals) : locals :=
  Locals (request a) v (callback a).
Definition set_callback (v : value) (a : locals) : locals :=
  Locals (request a) (additionalMessage a) v.

(** Lines 61-71: the [if (isString(request)) ... else if (isFunction(request))]
    statement, one assignment after the other as in the source. *)
Definition shiftRequest (a : locals) : locals :=
  if isString (request a) then
    let a := set_callback (additionalMessage a) a in
    let a := set_additionalMessage (request a) a in
    set_request VUndefined a
  else if isFunction (request a) then
    let a := set_callback (request a) a in
    let a := set_request VUndefined a in
    set_additionalMessage VUndefined a
  else a.

(** Lines 73-76: the [if (isFunction(additionalMessage))] statement. *)
Definition shiftAdditionalMessage (a : locals) : locals :=
  if isFunction (additionalMessage a) then
    let a := set_callback (additionalMessage a) a in
    set_additionalMessage VUndefined a
  else a.

(** Lines 61-76 together. *)
Definition resolveArguments (a : locals) : locals :=
  shiftAdditionalMessage (shiftRequest a).

(** *** The resolution as the specification words it

    Three rules, applied in this order; the third looks at the outcome of
    the first two. *)
Inductive rule_request : locals -> locals -> Prop :=
  | request_is_string (a : locals) :
      isString (request a) = true ->
      rule_request a
        {| request := VUndefined;
           additionalMessage := request a;
           callback := additionalMessage a |}
  | request_is_callable (a : locals) :
      isString (request a) = false ->
      isFunction (request a) = true ->
      rule_request a
        {| request := VUndefined;
           additionalMessage := VUndefined;
           callback := request a |}
  | request_is_neither (a : locals) :
      isString (request a) = false ->
      isFunction (request a) = false ->
      rule_request a a.

Inductive rule_additionalMessage : locals -> locals -> Prop :=
  | additionalMessage_is_callable (a : locals) :
      isFunction (additionalMessage a) = true ->
      rule_additionalMessage a
        {| request := request a;
           additionalMessage := VUndefined;
           callback := additionalMessage a |}
  | additionalMessage_is_not_callable (a : locals) :
      isFunction (additionalMessage a) = false ->
      rule_additionalMessage a a.

Definition resolves (a a' : locals) : Prop :=
  exists a1, rule_request a a1 /\ rule_additionalMessage a1 a'.

(** ** The error payload

    Modelled from the spec: the [ErrorMessage] class
    ([classes/error-message.js]) is not among the sources; the record and its
    methods below follow section 3 of the specification and the calls the
    handler makes.  The handler stores in a new payload whatever service
    name and version the configuration's service context holds (lines
    97-98), and these may be missing; so the two fields are optional here
    and their presence is a predicate ([servicePresent]), the invariant the
    handler is meant to keep.  The
    event timestamp belongs to the remote service or the populator and is not
    represented. *)
Record ErrorMessage : Type := mkErrorMessage {
  serviceName : option string;
  serviceVersion : option string;
  message : string;
  _autoGeneratedStackTrace : option string;
  httpRequest : gmap string value;
  user : option string
}.

Definition servicePresent (e : ErrorMessage) : Prop :=
  is_Some (serviceName e) /\ is_Some (serviceVersion e).

(** Modelled from the spec: [new ErrorMessage()], an empty payload. *)
Definition ErrorMessage_new : ErrorMessage :=
  mkErrorMessage None None "" None ∅ None.

(** Modelled from the spec: [setServiceContext(service, version)] stores the
    two values it is given, each of which may be missing. *)
Definition setServiceContext (s v : option string) (e : ErrorMessage) :
    ErrorMessage :=
  mkErrorMessage s v (message e) (_autoGeneratedStackTrace e)
    (httpRequest e) (user e).

(** Modelled from the spec: [setMessage(message)]. *)
Definition setMessage (m : string) (e : ErrorMessage) : ErrorMessage :=
  mkErrorMessage (serviceName e) (serviceVersion e) m
    (_autoGeneratedStackTrace e) (httpRequest e) (user e).

(** [delete err._autoGeneratedStackTrace]. *)
Definition deleteAutoGeneratedStackTrace (e : ErrorMessage) : ErrorMessage :=
  mkErrorMessage (serviceName e) (serviceVersion e) (message e) None
    (httpRequest e) (user e).

(** Modelled from the spec: [consumeRequestInformation(info)] merges the
    extracted fields into the http context; a key of [info] supersedes the
    payload's value for that key (the union of finite maps prefers its left
    argument). *)
Definition consumeRequestInformation (info : gmap string value)
    (e : ErrorMessage) : ErrorMessage :=
  mkErrorMessage (serviceName e) (serviceVersion e) (message e)
    (_autoGeneratedStackTrace e) (info ∪ httpRequest e) (user e).

(** Truthiness of [err._autoGeneratedStackTrace], the test of line 82: a
    missing property and the empty string are both falsy. *)
Definition truthy (o : option string) : bool :=
  match o with
  | Some s => negb (String.eqb s "")
  | None => false
  end.

(** ['\n'] and the double quote of the warning text. *)
Definition newline : string := String "010"%char EmptyString.
Definition dquote : string := String "034"%char EmptyString.

(** Lines 89-92: the text handed to [logger.warn]. *)
Definition missingStackTraceWarning (m : string) : string :=
  "Encountered a manually constructed error with message " +:+ dquote +:+
  m +:+ dquote +:+ " but without a construction site " +:+
  "stack trace.  This error might not be visible in the " +:+
  "error reporting console.".

(** ** The world the handler acts on

    The store holds the [ErrorMessage] instances; [events] records, oldest
    first, the calls made on the two collaborators bound by [handlerSetup]:
    [logger.warn (text)] and [client.sendError (em, callback)], the latter
    with the reference it was given.  [dispatched] keeps, for each
    [client.sendError] call, what the client finds behind that reference
    when the call is made: the reference and the instance as it then stands
    in the store. *)
Inductive event : Type :=
  | LoggerWarn (text : string)
  | ClientSendError (em : loc) (cb : value).

Record world : Type := World {
  heap : gmap loc ErrorMessage;
  events : list event;
  dispatched : list (loc * ErrorMessage)
}.

(** A call either returns a value or propagates an exception, in both cases
    with the world it leaves behind. *)
Inductive result (A : Type) : Type :=
  | Done (a : A) (w : world)
  | Raised (w : world).
Arguments Done {A} a w.
Arguments Raised {A} w.

Definition world_of {A : Type} (r : result A) : world :=
  match r with Done _ w => w | Raised w => w end.

Definition M (A : Type) : Type := world -> result A.

#[global] Instance M_ret : MRet M := fun A a w => Done a w.
#[global] Instance M_bind : MBind M := fun A B f m w =>
  match m w with
  | Done a w' => f a w'
  | Raised w' => Raised w'
  end.

(** [err instanceof ErrorMessage]: the reference, with the instance it
    denotes.  A reference the store does not hold denotes no instance. *)
Definition instanceofErrorMessage (v : value) : M (option (loc * ErrorMessage)) :=
  fun w =>
    match v with
    | VErrorMessage l =>
        match heap w !! l with
        | Some e => Done (Some (l, e)) w
        | None => Done None w
        end
    | _ => Done None w
    end.

(** [new ErrorMessage()]: a fresh instance in the store. *)
Definition newErrorMessage : M loc :=
  fun w =>
    let l := fresh (dom (heap w)) in
    Done l (World (<[l := ErrorMessage_new]> (heap w)) (events w)
                  (dispatched w)).

(** A method call [em.f(...)] that mutates the instance in place. *)
Definition update (l : loc) (f : ErrorMessage -> ErrorMessage) : M unit :=
  fun w => Done tt (World (alter f l (heap w)) (events w) (dispatched w)).

Definition warn (text : string) : M unit :=
  fun w =>
    Done tt (World (heap w) (events w ++ [LoggerWarn text]) (dispatched w)).

Definition sendError (em : loc) (cb : value) : M unit :=
  fun w =>
    Done tt (World (heap w) (events w ++ [ClientSendError em cb])
               (dispatched w ++
                match heap w !! em with Some e => [(em, e)] | None => [] end)).

(** An exception thrown by the language itself. *)
Definition raise {A : Type} : M A := fun w => Raised w.

(** ** The handler *)

(** [config.getServiceContext()].  The handler forwards the two fields to
    [setServiceContext] without looking at them (lines 97-98), and the
    documentation of the configuration options ([src/index.ts], lines 54-58)
    marks the service context, its service and its version as optional: each
    may be missing. *)
Record ServiceContext : Type := {
  service : option string;
  version : option string
}.
Record Configuration : Type := { getServiceContext : ServiceContext }.

Section handlerSetup.

(** The configuration bound by [handlerSetup]. *)
Variable config : Configuration.

(** The two modules the handler requires, neither among the sources:
    [populateErrorMessage(err, em)] fills the payload in place or throws
    ([None]); [manualRequestInformationExtractor(request)] returns the
    extracted request fields. *)
Variable populateErrorMessage : value -> ErrorMessage -> option ErrorMessage.
Variable manualRequestInformationExtractor : value -> gmap string value.

(** [populateErrorMessage(err, em)] on the instance at [l]; the handler
    calls it on the instance it has just made, so the last case never
    arises there. *)
Definition populate (err : value) (l : loc) : M unit :=
  fun w =>
    match heap w !! l with
    | Some e =>
        match populateErrorMessage err e with
        | Some e' =>
            Done tt (World (<[l := e']> (heap w)) (events w) (dispatched w))
        | None => Raised w
        end
    | None => Raised w
    end.

(** Lines 78-100: the payload to send, [em].  Under the test of line 82 the
    marker is a string, so [default] never falls back. *)
Definition payloadOf (err : value) : M loc :=
  inst ← instanceofErrorMessage err;
  match inst with
  | Some (l, e) =>
      (if truthy (_autoGeneratedStackTrace e) then
         update l (setMessage
           (message e +:+ newline +:+ default "" (_autoGeneratedStackTrace e)));;
         update l deleteAutoGeneratedStackTrace
       else
         warn (missingStackTraceWarning (message e)));;
      mret l
  | None =>
      em ← newErrorMessage;
      update em (setServiceContext (service (getServiceContext config))
                                   (version (getServiceContext config)));;
      populate err em;;
      mret em
  end.

(** Lines 59-112. *)
Definition reportManualError
    (err request additionalMessage callback : value) : M loc :=
  let 'Locals request additionalMessage callback :=
    resolveArguments (Locals request additionalMessage callback) in
  em ← payloadOf err;
  (if isObject request then
     update em (consumeRequestInformation
                  (manualRequestInformationExtractor request))
   else mret tt);;
  (match additionalMessage with
   | VString s => update em (setMessage s)
   | _ => mret tt
   end);;
  sendError em callback;;
  mret em.

End handlerSetup.

(** ** What one invocation does to the payload and to the collaborators

    The record-level reading of lines 82-93, 102-104 and 106-108, used to
    state the lemmas on [reportManualError]. *)

(** Lines 82-93 on a caller's instance. *)
Definition consumeMarker (e : ErrorMessage) : ErrorMessage :=
  if truthy (_autoGeneratedStackTrace e) then
    deleteAutoGeneratedStackTrace
      (setMessage
         (message e +:+ newline +:+ default "" (_autoGeneratedStackTrace e)) e)
  else e.

Definition markerEvents (e : ErrorMessage) : list event :=
  if truthy (_autoGeneratedStackTrace e) then []
  else [LoggerWarn (missingStackTraceWarning (message e))].

(** Lines 102-104. *)
Definition mergeRequest (extract : value -> gmap string value)
    (request : value) (e : ErrorMessage) : ErrorMessage :=
  if isObject request then consumeRequestInformation (extract request) e else e.

(** Lines 106-108. *)
Definition overrideMessage (additionalMessage : value) (e : ErrorMessage) :
    ErrorMessage :=
  match additionalMessage with
  | VString s => setMessage s e
  | _ => e
  end.

Definition finalPayload (extract : value -> gmap string value) (a : locals)
    (e : ErrorMessage) : ErrorMessage :=
  overrideMessage (additionalMessage a) (mergeRequest extract (request a) e).

(** The payload of a raw error before the populator sees it (lines 96-98). *)
Definition freshPayload (config : Configuration) : ErrorMessage :=
  setServiceContext (service (getServiceContext config))
                    (version (getServiceContext config)) ErrorMessage_new.

(** The calls an invocation adds to the record of [w], given the world [w']
    it leaves. *)
Definition emitted (w w' : world) : list event :=
  drop (length (events w)) (events w').

(** The payloads an invocation hands to the client, as the client finds
    them. *)
Definition delivered (w w' : world) : list (loc * ErrorMessage) :=
  drop (length (dispatched w)) (dispatched w').

Definition sendErrorCall (ev : event) : option (loc * value) :=
  match ev with ClientSendError l cb => Some (l, cb) | LoggerWarn _ => None end.

Definition warnCall (ev : event) : option string :=
  match ev with LoggerWarn t => Some t | ClientSendError _ _ => None end.

Definition sendErrorCalls (evs : list event) : list (loc * value) :=
  omap sendErrorCall evs.

Definition warnCalls (evs : list event) : list string :=
  omap warnCall evs.

(** ** Concrete collaborators, for the examples *)

Definition sampleConfig : Configuration :=
  {| getServiceContext :=
       {| service := Some "node"; version := Some "1.0" |} |}.

(** A configuration whose service context has no version. *)
Definition versionlessConfig : Configuration :=
  {| getServiceContext := {| service := Some "node"; version := None |} |}.

(** A populator that transcribes the message of an error or a string and
    throws on [undefined] and [null]. *)
Definition samplePopulate (v : value) (e : ErrorMessage) : option ErrorMessage :=
  match v with
  | VUndefined | VNull => None
  | VError m => Some (setMessage m e)
  | VString s => Some (setMessage s e)
  | _ => Some e
  end.

Definition sampleExtract (v : value) : gmap string value :=
  {[ "method" := VString "GET"; "url" := VString "/x" ]}.

Abbreviation sampleReport :=
  (reportManualError sampleConfig samplePopulate sampleExtract).

(** A payload made by the message builder, with its construction-site
    stack trace, and one built by hand. *)
Definition builtPayload : ErrorMessage :=
  mkErrorMessage (Some "node") (Some "1.0") "M" (Some "S")
    {[ "method" := VString "POST" ]} None.

Definition handBuiltPayload : ErrorMessage :=
  mkErrorMessage (Some "node") None "by hand" None ∅ None.

Definition emptyWorld : world := World ∅ [] [].
Definition worldWith (e : ErrorMessage) : world := World {[ 7 := e ]} [] [].

(** [report (new Error ('boom'), req, 'm', cb)] in the empty world, and
    [report (payload, req)] on the built payload. *)
Definition rawRun : result loc :=
  sampleReport (VError "boom") (VObject 1) (VString "m") (VFunction 2) emptyWorld.

Definition prebuiltRun : result loc :=
  sampleReport (VErrorMessage 7) (VObject 1) VUndefined VUndefined
    (worldWith builtPayload).

(** ** The unhandled-rejection listener ([src/index.ts], lines 122-132)

    When the configuration asks for it, the constructor of [ErrorReporting]
    registers on the process a listener that logs a warning naming the
    rejection reason and then calls [that.report (reason)], with no other
    argument.  The logger it writes to is the one [manual.handlerSetup] is
    given on line 142, so both kinds of warning reach the same record. *)

(** The string JavaScript's [+] makes of the reason, or [None] when the
    conversion throws a [TypeError].  For [undefined], [null], a boolean and
    a string the language fixes the text; a symbol cannot be converted; for
    the other values the outcome is that of the value's own conversion,
    [textOf], which gives no text for an object without one (an object with
    no prototype, say). *)
Definition toStringJS (textOf : value -> option string) (v : value) :
    option string :=
  match v with
  | VUndefined => Some "undefined"
  | VNull => Some "null"
  | VBoolean true => Some "true"
  | VBoolean false => Some "false"
  | VString s => Some s
  | VSymbol _ => None
  | _ => textOf v
  end.

(** Lines 126-129. *)
Definition unhandledRejectionWarning (reason : string) : string :=
  "UnhandledPromiseRejectionWarning: " +:+
  "Unhandled promise rejection: " +:+ reason +:+
  ".  This rejection has been reported to the " +:+
  "Google Cloud Platform error-reporting console.".

Section unhandledRejection.

Variable config : Configuration.
Variable populateErrorMessage : value -> ErrorMessage -> option ErrorMessage.
Variable manualRequestInformationExtractor : value -> gmap string value.
Variable textOf : value -> option string.

(** Lines 124-131: the listener; what [report] returns is dropped.  The
    argument of [logger.warn] is evaluated first: when the reason has no
    string conversion, the listener raises before any call is made. *)
Definition onUnhandledRejection (reason : value) : M unit :=
  match toStringJS textOf reason with
  | Some text =>
      warn (unhandledRejectionWarning text);;
      _ ← reportManualError config populateErrorMessage
            manualRequestInformationExtractor
            reason VUndefined VUndefined VUndefined;
      mret tt
  | None => raise
  end.

End unhandledRejection.

(** A conversion for the examples: an error reads as its name and message,
    an ordinary object as [[object Object]]; the object 13 has no prototype
    and no conversion. *)
Definition sampleTextOf (v : value) : option string :=
  match v with
  | VError "" => Some "Error"
  | VError msg => Some ("Error: " +:+ msg)
  | VObject 13 => None
  | VObject _ | VErrorMessage _ => Some "[object Object]"
  | VFunction _ => Some "function () {}"
  | VNumber n => Some (pretty n)
  | _ => None
  end.

Abbreviation sampleListener :=
  (onUnhandledRejection sampleConfig samplePopulate sampleExtract sampleTextOf).

(** A payload whose marker is the empty string. *)
Definition emptyMarkerPayload : ErrorMessage :=
  mkErrorMessage (Some "node") (Some "1.0") "M" (Some "") ∅ None.

(** A store with two payloads. *)
Definition twoPayloads : world :=
  World {[ 7 := builtPayload; 9 := handBuiltPayload ]} [] [].

(** ** Facts about the argument resolution *)

Lemma shiftRequest_rule (a : locals) : rule_request a (shiftRequest a).
Proof.
  unfold shiftRequest.
  destruct (isString (request a)) eqn:Hs.
  - destruct a as [r m c]; simpl in *. by apply (request_is_string (Locals r m c)).
  - destruct (isFunction (request a)) eqn:Hf.
    + destruct a as [r m c]; simpl in *.
      by apply (request_is_callable (Locals r m c)).
    + by apply request_is_neither.
Qed.

Lemma rule_request_fun (a a1 : locals) :
  rule_request a a1 -> a1 = shiftRequest a.
Proof.
  unfold shiftRequest.
  destruct 1 as [a Hs | a Hs Hf | a Hs Hf]; rewrite Hs; try rewrite Hf;
    by destruct a.
Qed.

Lemma shiftAdditionalMessage_rule (a : locals) :
  rule_additionalMessage a (shiftAdditionalMessage a).
Proof.
  unfold shiftAdditionalMessage.
  destruct (isFunction (additionalMessage a)) eqn:Hf.
  - destruct a as [r m c]; simpl in *.
    by apply (additionalMessage_is_callable (Locals r m c)).
  - by apply additionalMessage_is_not_callable.
Qed.

Lemma rule_additionalMessage_fun (a a' : locals) :
  rule_additionalMessage a a' -> a' = shiftAdditionalMessage a.
Proof.
  unfold shiftAdditionalMessage.
  destruct 1 as [a Hf | a Hf]; rewrite Hf; by destruct a.
Qed.

(** After the resolution the message slot never holds a callable, and the
    request slot holds neither a string nor a callable. *)
Lemma resolveArguments_request (a : locals) :
  isString (request (resolveArguments a)) = false /\
  isFunction (request (resolveArguments a)) = false.
Proof.
  destruct a as [r m c]. unfold resolveArguments, shiftRequest, shiftAdditionalMessage.
  simpl. destruct r, m; simpl; auto.
Qed.

Lemma resolveArguments_additionalMessage (a : locals) :
  isFunction (additionalMessage (resolveArguments a)) = false.
Proof.
  destruct a as [r m c]. unfold resolveArguments, shiftRequest, shiftAdditionalMessage.
  simpl. destruct r, m; simpl; auto.
Qed.

Lemma resolveArguments_idempotent (a : locals) :
  resolveArguments (resolveArguments a) = resolveArguments a.
Proof.
  destruct (resolveArguments_request a) as [Hs Hf].
  pose proof (resolveArguments_additionalMessage a) as Hm.
  set (b := resolveArguments a) in *.
  unfold resolveArguments at 1, shiftRequest. rewrite Hs, Hf.
  unfold shiftAdditionalMessage. by rewrite Hm.
Qed.

(** ** The record-level steps *)

Lemma finalPayload_marker (x : value -> gmap string value) (a : locals)
    (e : ErrorMessage) :
  _autoGeneratedStackTrace (finalPayload x a e) = _autoGeneratedStackTrace e.
Proof.
  unfold finalPayload, overrideMessage, mergeRequest.
  destruct (isObject _); by destruct (additionalMessage _).
Qed.

Lemma finalPayload_message (x : value -> gmap string value) (a : locals)
    (e : ErrorMessage) :
  message (finalPayload x a e) =
    match additionalMessage a with VString s => s | _ => message e end.
Proof.
  unfold finalPayload, overrideMessage, mergeRequest.
  destruct (isObject _); by destruct (additionalMessage _).
Qed.

Lemma finalPayload_service (x : value -> gmap string value) (a : locals)
    (e : ErrorMessage) :
  serviceName (finalPayload x a e) = serviceName e /\
  serviceVersion (finalPayload x a e) = serviceVersion e.
Proof.
  unfold finalPayload, overrideMessage, mergeRequest.
  destruct (isObject _); by destruct (additionalMessage _).
Qed.

Lemma finalPayload_httpRequest (x : value -> gmap string value) (a : locals)
    (e : ErrorMessage) :
  httpRequest (finalPayload x a e) =
    if isObject (request a) then x (request a) ∪ httpRequest e
    else httpRequest e.
Proof.
  unfold finalPayload, overrideMessage, mergeRequest.
  destruct (isObject _); by destruct (additionalMessage _).
Qed.

Lemma consumeMarker_truthy (e : ErrorMessage) (S : string) :
  _autoGeneratedStackTrace e = Some S ->
  truthy (_autoGeneratedStackTrace e) = true ->
  consumeMarker e =
    deleteAutoGeneratedStackTrace (setMessage (message e +:+ newline +:+ S) e).
Proof. intros HS Ht. unfold consumeMarker. by rewrite Ht, HS. Qed.

Lemma consumeMarker_falsy (e : ErrorMessage) :
  truthy (_autoGeneratedStackTrace e) = false -> consumeMarker e = e.
Proof. intros Ht. unfold consumeMarker. by rewrite Ht. Qed.

Lemma consumeMarker_frame (e : ErrorMessage) :
  serviceName (consumeMarker e) = serviceName e /\
  serviceVersion (consumeMarker e) = serviceVersion e /\
  httpRequest (consumeMarker e) = httpRequest e.
Proof. unfold consumeMarker. by destruct (truthy _). Qed.

(** ** The store *)

Lemma alter_lookup (l : loc) (f : ErrorMessage -> ErrorMessage)
    (h : gmap loc ErrorMessage) (e : ErrorMessage) :
  h !! l = Some e -> alter f l h = <[l := f e]> h.
Proof.
  intros He. apply map_eq. intros k. rewrite lookup_alter, lookup_insert.
  case_decide; subst; by rewrite ?He.
Qed.

Lemma instanceof_cases (err : value) (w : world) :
  (exists l e, err = VErrorMessage l /\ heap w !! l = Some e /\
     instanceofErrorMessage err w = Done (Some (l, e)) w) \/
  instanceofErrorMessage err w = Done None w.
Proof.
  destruct err; simpl; auto.
  destruct (heap w !! l) as [e|] eqn:He; [left | right]; eauto.
Qed.

Section facts.

Variable config : Configuration.
Variable populateErrorMessage : value -> ErrorMessage -> option ErrorMessage.
Variable manualRequestInformationExtractor : value -> gmap string value.

Local Abbreviation payload := (payloadOf config populateErrorMessage).
Local Abbreviation report :=
  (reportManualError config populateErrorMessage
     manualRequestInformationExtractor).
Local Abbreviation final := (finalPayload manualRequestInformationExtractor).

(** Lines 78-94 on an instance the caller built. *)
Lemma payloadOf_prebuilt (l : loc) (e : ErrorMessage) (w : world) :
  heap w !! l = Some e ->
  payload (VErrorMessage l) w =
    Done l (World (<[l := consumeMarker e]> (heap w))
                (events w ++ markerEvents e) (dispatched w)).
Proof.
  intros He. unfold payloadOf, mbind, M_bind.
  simpl. rewrite He. unfold consumeMarker, markerEvents.
  destruct (truthy (_autoGeneratedStackTrace e)); simpl.
  - rewrite (alter_lookup _ _ _ _ He).
    erewrite alter_lookup by apply lookup_insert_eq.
    by rewrite insert_insert_eq, app_nil_r.
  - by rewrite insert_id.
Qed.

(** Lines 95-100 on anything else. *)
Lemma payloadOf_raw (err : value) (w : world) :
  instanceofErrorMessage err w = Done None w ->
  payload err w =
    let l := fresh (dom (heap w)) in
    match populateErrorMessage err (freshPayload config) with
    | Some e' => Done l (World (<[l := e']> (heap w)) (events w) (dispatched w))
  | None =>
      Raised (World (<[l := freshPayload config]> (heap w)) (events w)
                    (dispatched w))
  end.
Proof.
  intros Hi. unfold payloadOf, mbind, M_bind. rewrite Hi.
  unfold newErrorMessage, populate. simpl.
  erewrite alter_lookup by apply lookup_insert_eq.
  rewrite insert_insert_eq, lookup_insert_eq. fold (freshPayload config).
  destruct (populateErrorMessage err (freshPayload config)); simpl;
    by rewrite ?insert_insert_eq.
Qed.

(** Lines 102-111, once the payload [em] is known. *)
Lemma report_after_payload (err r m c : value) (w w1 : world) (l : loc)
    (e1 : ErrorMessage) :
  payload err w = Done l w1 ->
  heap w1 !! l = Some e1 ->
  report err r m c w =
    Done l (World (<[l := final (resolveArguments (Locals r m c)) e1]> (heap w1))
                (events w1 ++
                 [ClientSendError l (callback (resolveArguments (Locals r m c)))])
                (dispatched w1 ++
                 [(l, final (resolveArguments (Locals r m c)) e1)])).
Proof.
  intros Hp He. unfold reportManualError, finalPayload, mergeRequest,
    overrideMessage.
  destruct (resolveArguments (Locals r m c)) as [r' m' c']. simpl.
  unfold mbind, M_bind. rewrite Hp.
  destruct (isObject r'); destruct m'; simpl;
    rewrite ?(alter_lookup _ _ _ _ He);
    try (erewrite alter_lookup by apply lookup_insert_eq);
    rewrite ?insert_insert_eq, ?lookup_insert_eq, ?He; try done;
    by rewrite (insert_id _ _ _ He).
Qed.

Lemma report_raised (err r m c : value) (w w1 : world) :
  payload err w = Raised w1 -> report err r m c w = Raised w1.
Proof.
  intros Hp. unfold reportManualError.
  destruct (resolveArguments (Locals r m c)) as [r' m' c'].
  unfold mbind, M_bind. by rewrite Hp.
Qed.

(** The whole function on an instance the caller built. *)
Lemma report_prebuilt (l : loc) (e : ErrorMessage) (r m c : value) (w : world) :
  heap w !! l = Some e ->
  report (VErrorMessage l) r m c w =
    Done l (World (<[l := final (resolveArguments (Locals r m c))
                                (consumeMarker e)]> (heap w))
                  (events w ++ markerEvents e ++
                 [ClientSendError l (callback (resolveArguments (Locals r m c)))])
                (dispatched w ++
                 [(l, final (resolveArguments (Locals r m c))
                            (consumeMarker e))])).
Proof.
  intros He.
  erewrite report_after_payload;
    [ | by apply payloadOf_prebuilt | simpl; apply lookup_insert_eq ].
  simpl. by rewrite insert_insert_eq, <- app_assoc.
Qed.

(** The whole function on a raw error. *)
Lemma report_raw (err r m c : value) (w : world) :
  instanceofErrorMessage err w = Done None w ->
  report err r m c w =
    let l := fresh (dom (heap w)) in
    match populateErrorMessage err (freshPayload config) with
    | Some e' =>
        Done l (World (<[l := final (resolveArguments (Locals r m c)) e']> (heap w))
                    (events w ++
                     [ClientSendError l (callback (resolveArguments (Locals r m c)))])
                    (dispatched w ++
                     [(l, final (resolveArguments (Locals r m c)) e')]))
  | None =>
      Raised (World (<[l := freshPayload config]> (heap w)) (events w)
                    (dispatched w))
  end.
Proof.
  intros Hi. pose proof (payloadOf_raw err w Hi) as Hp. simpl in *.
  destruct (populateErrorMessage err (freshPayload config)) as [e'|].
  - erewrite report_after_payload;
      [ | exact Hp | simpl; apply lookup_insert_eq ].
    simpl. by rewrite insert_insert_eq.
  - by apply report_raised.
Qed.

Lemma emitted_app (w : world) (h : gmap loc ErrorMessage) (evs : list event)
    (ds : list (loc * ErrorMessage)) :
  emitted w (World h (events w ++ evs) ds) = evs.
Proof. unfold emitted. simpl. by rewrite drop_app_length. Qed.

Lemma emitted_none (w : world) (h : gmap loc ErrorMessage)
    (ds : list (loc * ErrorMessage)) :
  emitted w (World h (events w) ds) = [].
Proof. unfold emitted. simpl. apply drop_all. Qed.

Lemma delivered_app (w : world) (h : gmap loc ErrorMessage) (evs : list event)
    (ds : list (loc * ErrorMessage)) :
  delivered w (World h evs (dispatched w ++ ds)) = ds.
Proof. unfold delivered. simpl. by rewrite drop_app_length. Qed.

(** What a returning invocation has done. *)
Lemma report_done_inv (err r m c : value) (w w' : world) (l : loc) :
  report err r m c w = Done l w' ->
  exists (e1 : ErrorMessage) (evs : list event),
    w' = World (<[l := final (resolveArguments (Locals r m c)) e1]> (heap w))
             (events w ++ evs ++
              [ClientSendError l (callback (resolveArguments (Locals r m c)))])
             (dispatched w ++
              [(l, final (resolveArguments (Locals r m c)) e1)]) /\
    ((exists e : ErrorMessage,
        err = VErrorMessage l /\ heap w !! l = Some e /\
        e1 = consumeMarker e /\ evs = markerEvents e) \/
     (instanceofErrorMessage err w = Done None w /\
      populateErrorMessage err (freshPayload config) = Some e1 /\
      evs = [] /\ l = fresh (dom (heap w)))).
Proof.
  intros Hr.
  destruct (instanceof_cases err w) as [(l0 & e & -> & He & _) | Hi].
  - rewrite (report_prebuilt _ _ _ _ _ _ He) in Hr. injection Hr as <- <-.
    exists (consumeMarker e), (markerEvents e). split; [ done | ].
    left. by exists e.
  - rewrite (report_raw _ _ _ _ _ Hi) in Hr. simpl in Hr.
    destruct (populateErrorMessage err (freshPayload config)) as [e1|] eqn:Hp;
      [ | done ].
    injection Hr as <- <-. exists e1, []. split; [ done | ]. by right.
Qed.

(** An invocation raises exactly when the populator does. *)
Lemma report_raised_iff (err r m c : value) (w : world) :
  (exists w', report err r m c w = Raised w') <->
  instanceofErrorMessage err w = Done None w /\
  populateErrorMessage err (freshPayload config) = None.
Proof.
  split.
  - intros [w' Hr].
    destruct (instanceof_cases err w) as [(l0 & e & -> & He & _) | Hi].
    + by rewrite (report_prebuilt _ _ _ _ _ _ He) in Hr.
    + split; [ done | ]. rewrite (report_raw _ _ _ _ _ Hi) in Hr. simpl in Hr.
      by destruct (populateErrorMessage err (freshPayload config)).
  - intros [Hi Hp]. rewrite (report_raw _ _ _ _ _ Hi). simpl. rewrite Hp. eauto.
Qed.

(** The invocation is the invocation on the resolved slots. *)
Lemma report_resolved (err r m c : value) (w : world) :
  report err r m c w =
    report err (request (resolveArguments (Locals r m c)))
               (additionalMessage (resolveArguments (Locals r m c)))
               (callback (resolveArguments (Locals r m c))) w.
Proof.
  unfold reportManualError.
  pose proof (resolveArguments_idempotent (Locals r m c)) as Hi.
  destruct (resolveArguments (Locals r m c)) as [r' m' c']. simpl.
  by rewrite Hi.
Qed.

(** C1: every invocation [report (err, request, additionalMessage,
    callback)] resolves the three optional slots exactly by the three rules
    of the specification, applied in order: a string request moves to
    [additionalMessage], the old [additionalMessage] to [callback] and the
    request becomes absent; otherwise a callable request moves to
    [callback] and the other two become absent; afterwards a callable
    [additionalMessage] moves to [callback] and becomes absent.  The
    invocation then proceeds on the slots so resolved. *)
Theorem resolveArguments_three_rules (err r m c : value) (w : world) :
  (forall a' : locals,
     resolveArguments (Locals r m c) = a' <-> resolves (Locals r m c) a') /\
  report err r m c w =
    report err (request (resolveArguments (Locals r m c)))
               (additionalMessage (resolveArguments (Locals r m c)))
               (callback (resolveArguments (Locals r m c))) w.
Proof.
  split; [ | apply report_resolved ].
  intros a'. split.
  - intros <-. exists (shiftRequest (Locals r m c)). split.
    + apply shiftRequest_rule.
    + apply shiftAdditionalMessage_rule.
  - intros (a1 & H1 & H2).
    apply rule_request_fun in H1. apply rule_additionalMessage_fun in H2.
    by subst.
Qed.

(** C2: a caller's payload that carries a construction-site stack trace
    [S] (the test of line 82 holds) and the message [M]: one pass of
    [report] leaves the message [M] + newline + [S] (or the override, when
    the invocation has one) and removes the marker from the instance; a
    second pass over the same instance returns as well and appends nothing:
    its message is the one the first pass left, or the second override. *)
Theorem marker_appended_once (l : loc) (e : ErrorMessage) (S : string)
    (r m c r2 m2 c2 : value) (w : world) :
  heap w !! l = Some e ->
  _autoGeneratedStackTrace e = Some S ->
  truthy (_autoGeneratedStackTrace e) = true ->
  exists (w1 : world) (e1 : ErrorMessage),
    report (VErrorMessage l) r m c w = Done l w1 /\
    heap w1 !! l = Some e1 /\
    _autoGeneratedStackTrace e1 = None /\
    message e1 =
      match additionalMessage (resolveArguments (Locals r m c)) with
      | VString s => s
      | _ => message e +:+ newline +:+ S
      end /\
    exists (w2 : world) (e2 : ErrorMessage),
      report (VErrorMessage l) r2 m2 c2 w1 = Done l w2 /\
      heap w2 !! l = Some e2 /\
      _autoGeneratedStackTrace e2 = None /\
      message e2 =
        match additionalMessage (resolveArguments (Locals r2 m2 c2)) with
        | VString s => s
        | _ => message e1
        end.
Proof.
  intros He HS Ht.
  eexists _, _. split; [ by apply report_prebuilt | ].
  split; [ simpl; apply lookup_insert_eq | ].
  rewrite finalPayload_marker, finalPayload_message,
    (consumeMarker_truthy e S HS Ht). simpl.
  do 2 (split; [ done | ]).
  eexists _, _.
  split; [ apply report_prebuilt; simpl; apply lookup_insert_eq | ].
  split; [ simpl; apply lookup_insert_eq | ].
  rewrite consumeMarker_falsy by (by rewrite finalPayload_marker).
  by rewrite !finalPayload_marker, !finalPayload_message.
Qed.

(** C3: when the resolved [additionalMessage] is a string, the override is
    the last mutation before dispatch: the payload that [client.sendError]
    is handed has, at the moment of that call, that string as its message,
    whatever the payload held before, and it is the payload the invocation
    returns, unchanged since.  On a caller's payload the invocation returns,
    and the construction-site stack trace appended on the way (and its
    marker) is gone from the message. *)
Theorem override_is_final (err r m c : value) (w : world) (s : string) :
  additionalMessage (resolveArguments (Locals r m c)) = VString s ->
  (forall (l : loc) (w' : world),
     report err r m c w = Done l w' ->
     exists e' : ErrorMessage,
       delivered w w' = [(l, e')] /\
       message e' = s /\
       heap w' !! l = Some e') /\
  (forall (l : loc) (e : ErrorMessage),
     err = VErrorMessage l ->
     heap w !! l = Some e ->
     exists (w' : world) (e' : ErrorMessage),
       report err r m c w = Done l w' /\
       delivered w w' = [(l, e')] /\
       heap w' !! l = Some e' /\
       message e' = s /\
       (truthy (_autoGeneratedStackTrace e) = true ->
        _autoGeneratedStackTrace e' = None)).
Proof.
  intros Hs.
  assert (Hfin : forall e1, message (final (resolveArguments (Locals r m c)) e1) = s).
  { intros e1. by rewrite finalPayload_message, Hs. }
  split.
  - intros l w' Hr. apply report_done_inv in Hr as (e1 & evs & -> & _).
    eexists. split; [ apply delivered_app | ].
    split; [ apply Hfin | apply lookup_insert_eq ].
  - intros l e -> He. eexists _, _.
    split; [ by apply report_prebuilt | ].
    split; [ apply delivered_app | ].
    split; [ apply lookup_insert_eq | ].
    split; [ apply Hfin | ].
    intros Ht. rewrite finalPayload_marker. unfold consumeMarker. by rewrite Ht.
Qed.

(** C4: an invocation that completes returns a reference to an
    [ErrorMessage] instance, and that reference is the one handed to
    [client.sendError] in this invocation (the only such call it makes). *)
Theorem returned_payload_is_sent (err r m c : value) (w w' : world) (l : loc) :
  report err r m c w = Done l w' ->
  is_Some (heap w' !! l) /\
  exists cb : value, sendErrorCalls (emitted w w') = [(l, cb)].
Proof.
  intros Hr. apply report_done_inv in Hr as (e1 & evs & -> & Hc).
  split; [ simpl; rewrite lookup_insert_eq; eauto | ].
  eexists. rewrite emitted_app. unfold sendErrorCalls. rewrite omap_app. simpl.
  destruct Hc as [(e & _ & _ & _ & ->) | (_ & _ & -> & _)]; [ | done ].
  unfold markerEvents. by destruct (truthy _).
Qed.

(** C5 (amended): on a raw error the new payload is given the service name
    and version of the configuration's service context, as they are, before
    the populator is applied to it; the populator leaving them alone, the
    payload that [client.sendError] is handed has, at the moment of that
    call, exactly the configuration's service name and version, so that they
    are present there exactly when the configuration has them.  On a
    caller's payload the handler neither sets nor checks them: the payload
    is handed over with the service name and version the caller left in
    it. *)
Theorem service_context_at_dispatch (err r m c : value) (w w' : world) (l : loc) :
  (forall v e e', populateErrorMessage v e = Some e' ->
     serviceName e' = serviceName e /\ serviceVersion e' = serviceVersion e) ->
  report err r m c w = Done l w' ->
  exists e' : ErrorMessage,
    delivered w w' = [(l, e')] /\
    sendErrorCalls (emitted w w') =
      [(l, callback (resolveArguments (Locals r m c)))] /\
    (instanceofErrorMessage err w = Done None w ->
     (exists e1, populateErrorMessage err (freshPayload config) = Some e1) /\
     serviceName (freshPayload config) = service (getServiceContext config) /\
     serviceVersion (freshPayload config) = version (getServiceContext config) /\
     serviceName e' = service (getServiceContext config) /\
     serviceVersion e' = version (getServiceContext config) /\
     (servicePresent e' <->
      is_Some (service (getServiceContext config)) /\
      is_Some (version (getServiceContext config)))) /\
    (forall (l0 : loc) (e : ErrorMessage),
       err = VErrorMessage l0 -> heap w !! l0 = Some e ->
       l0 = l /\
       serviceName e' = serviceName e /\ serviceVersion e' = serviceVersion e /\
       (servicePresent e' <-> servicePresent e)).
Proof.
  intros Hframe Hr. apply report_done_inv in Hr as (e1 & evs & -> & Hc).
  eexists. split; [ apply delivered_app | ].
  unfold servicePresent.
  destruct (finalPayload_service manualRequestInformationExtractor
              (resolveArguments (Locals r m c)) e1) as [-> ->].
  split.
  { rewrite emitted_app. unfold sendErrorCalls. rewrite omap_app. simpl.
    destruct Hc as [(e & _ & _ & _ & ->) | (_ & _ & -> & _)]; [ | done ].
    unfold markerEvents. by destruct (truthy _). }
  destruct Hc as [(e & -> & He & -> & _) | (Hi & Hp & _ & _)].
  - split.
    + intros Hi. simpl in Hi. by rewrite He in Hi.
    + intros l0 e0 [= <-] He0. rewrite He in He0. injection He0 as <-.
      destruct (consumeMarker_frame e) as (-> & -> & _). done.
  - split.
    + intros _. destruct (Hframe _ _ _ Hp) as [-> ->].
      split; [ by exists e1 | done ].
    + intros l0 e0 -> He0. simpl in Hi. by rewrite He0 in Hi.
Qed.

(** C6: with the http context [prior] that the payload holds once lines
    78-100 are done (the caller's own on a caller's payload, the one the
    populator leaves on a raw error): when the resolved request is an
    object, the payload that is sent holds, key by key, the value the
    request extractor returns for the request and, for a key the extractor
    does not return, the prior value; when it is not, the http context is
    the prior one. *)
Theorem request_merged (err r m c : value) (w w' : world) (l : loc) :
  report err r m c w = Done l w' ->
  exists (e1 e' : ErrorMessage),
    heap w' !! l = Some e' /\
    (forall (l0 : loc) (e : ErrorMessage),
       err = VErrorMessage l0 -> heap w !! l0 = Some e ->
       httpRequest e1 = httpRequest e) /\
    (instanceofErrorMessage err w = Done None w ->
     populateErrorMessage err (freshPayload config) = Some e1) /\
    (isObject (request (resolveArguments (Locals r m c))) = true ->
     forall k : string,
       httpRequest e' !! k =
         match manualRequestInformationExtractor
                 (request (resolveArguments (Locals r m c))) !! k with
         | Some v => Some v
         | None => httpRequest e1 !! k
         end) /\
    (isObject (request (resolveArguments (Locals r m c))) = false ->
     httpRequest e' = httpRequest e1).
Proof.
  intros Hr. apply report_done_inv in Hr as (e1 & evs & -> & Hc).
  exists e1. eexists. split; [ simpl; apply lookup_insert_eq | ].
  rewrite finalPayload_httpRequest.
  split; [ | split; [ | split ] ].
  - intros l0 e0 -> He0.
    destruct Hc as [(e & [= <-] & He & -> & _) | (Hi & _)].
    + rewrite He in He0. injection He0 as <-.
      by destruct (consumeMarker_frame e) as (_ & _ & ->).
    + simpl in Hi. by rewrite He0 in Hi.
  - intros Hi. destruct Hc as [(e & -> & He & _) | (_ & Hp & _)]; [ | done ].
    simpl in Hi. by rewrite He in Hi.
  - intros -> k. rewrite lookup_union.
    destruct (manualRequestInformationExtractor _ !! k) as [v|]; simpl.
    + by destruct (httpRequest e1 !! k).
    + by destruct (httpRequest e1 !! k).
  - by intros ->.
Qed.

(** C7: on a caller's payload without a construction-site stack trace the
    invocation returns having made exactly two calls on its collaborators,
    in this order: one [logger.warn] with the diagnostic, then
    [client.sendError] with the payload and the resolved callback.  And no
    invocation, whatever its arguments and however it ends, makes more than
    one [logger.warn] call. *)
Theorem hand_built_warns_once (err r m c : value) (w : world) :
  length (warnCalls (emitted w (world_of (report err r m c w)))) <= 1 /\
  forall (l : loc) (e : ErrorMessage),
    err = VErrorMessage l ->
    heap w !! l = Some e ->
    truthy (_autoGeneratedStackTrace e) = false ->
    exists w' : world,
      report err r m c w = Done l w' /\
      emitted w w' =
        [LoggerWarn (missingStackTraceWarning (message e));
         ClientSendError l (callback (resolveArguments (Locals r m c)))].
Proof.
  split.
  - destruct (instanceof_cases err w) as [(l0 & e & -> & He & _) | Hi].
    + rewrite (report_prebuilt _ _ _ _ _ _ He). simpl. rewrite emitted_app.
      unfold markerEvents. destruct (truthy _); simpl; lia.
    + rewrite (report_raw _ _ _ _ _ Hi). simpl.
      destruct (populateErrorMessage err (freshPayload config)); simpl.
      * rewrite emitted_app. simpl. lia.
      * rewrite emitted_none. simpl. lia.
  - intros l e -> He Ht. eexists. split; [ by apply report_prebuilt | ].
    rewrite emitted_app. unfold markerEvents. by rewrite Ht.
Qed.

(** C9 (amended): an invocation raises exactly when its first argument is
    not a payload and the populator raises on it; nothing in the handling
    of the optional arguments raises.  A request that is neither a string,
    a callable nor an object is treated as absent, and so is, the request
    not being a string or a callable, an [additionalMessage] that is
    neither a string nor a callable.  The callback slot is not inspected:
    with a request that is neither a string nor a callable and an
    [additionalMessage] that is not a callable, [client.sendError] receives
    the fourth argument as it is, whatever its type. *)
Theorem malformed_optionals (err r m c : value) (w : world) :
  ((exists w', report err r m c w = Raised w') <->
   instanceofErrorMessage err w = Done None w /\
   populateErrorMessage err (freshPayload config) = None) /\
  (isString r = false -> isFunction r = false -> isObject r = false ->
   report err r m c w = report err VUndefined m c w) /\
  (isString r = false -> isFunction r = false ->
   isString m = false -> isFunction m = false ->
   report err r m c w = report err r VUndefined c w) /\
  (isString r = false -> isFunction r = false -> isFunction m = false ->
   forall (l : loc) (w' : world),
     report err r m c w = Done l w' ->
     sendErrorCalls (emitted w w') = [(l, c)]).
Proof.
  split; [ apply report_raised_iff | ].
  split; [ | split ].
  - intros Hs Hf Ho. unfold reportManualError.
    destruct r; try discriminate; by destruct m.
  - intros Hs Hf Hs' Hf'. unfold reportManualError.
    destruct r; try discriminate; by destruct m.
  - intros Hs Hf Hf' l w' Hr.
    apply report_done_inv in Hr as (e1 & evs & -> & Hc).
    rewrite emitted_app. unfold sendErrorCalls. rewrite omap_app.
    assert (callback (resolveArguments (Locals r m c)) = c) as ->.
    { unfold resolveArguments, shiftRequest, shiftAdditionalMessage. simpl.
      rewrite Hs, Hf. simpl. by rewrite Hf'. }
    destruct Hc as [(e & _ & _ & _ & ->) | (_ & _ & -> & _)]; [ | done ].
    unfold markerEvents. by destruct (truthy _).
Qed.

(** C10: an invocation that returns has called [client.sendError] exactly
    once, with the returned payload and the resolved callback as it is;
    the invocation does return on every caller's payload, with or without
    a marker, and on every raw error the populator accepts; the callback
    that is passed is [undefined] when the caller gave none. *)
Theorem sendError_exactly_once (err r m c : value) (w : world) :
  (forall (l : loc) (w' : world),
     report err r m c w = Done l w' ->
     sendErrorCalls (emitted w w') =
       [(l, callback (resolveArguments (Locals r m c)))]) /\
  (forall (l : loc) (e : ErrorMessage),
     err = VErrorMessage l -> heap w !! l = Some e ->
     exists w', report err r m c w = Done l w') /\
  (forall e1 : ErrorMessage,
     instanceofErrorMessage err w = Done None w ->
     populateErrorMessage err (freshPayload config) = Some e1 ->
     exists l w', report err r m c w = Done l w') /\
  (isString r = false -> isFunction r = false -> isFunction m = false ->
   c = VUndefined ->
   callback (resolveArguments (Locals r m c)) = VUndefined).
Proof.
  split; [ | split; [ | split ] ].
  - intros l w' Hr. apply report_done_inv in Hr as (e1 & evs & -> & Hc).
    rewrite emitted_app. unfold sendErrorCalls. rewrite omap_app. simpl.
    destruct Hc as [(e & _ & _ & _ & ->) | (_ & _ & -> & _)]; [ | done ].
    unfold markerEvents. by destruct (truthy _).
  - intros l e -> He. eexists. by apply report_prebuilt.
  - intros e1 Hi Hp. rewrite (report_raw _ _ _ _ _ Hi). simpl. rewrite Hp. eauto.
  - intros Hs Hf Hf' ->.
    unfold resolveArguments, shiftRequest, shiftAdditionalMessage. simpl.
    rewrite Hs, Hf. simpl. by rewrite Hf'.
Qed.

End facts.

(** ** The eight call shapes *)

(** C8: with [req] an object, [msg] a string and [cb] a callable, each of the
    eight call shapes, the arguments left out being [undefined], resolves to
    the intended slots; and resolving any triple a second time changes
    nothing. *)
Theorem call_shapes_resolved (req msg cb : value) :
  isObject req = true -> isString msg = true -> isFunction cb = true ->
  resolveArguments (Locals VUndefined VUndefined VUndefined)
    = Locals VUndefined VUndefined VUndefined /\
  resolveArguments (Locals req VUndefined VUndefined)
    = Locals req VUndefined VUndefined /\
  resolveArguments (Locals msg VUndefined VUndefined)
    = Locals VUndefined msg VUndefined /\
  resolveArguments (Locals cb VUndefined VUndefined)
    = Locals VUndefined VUndefined cb /\
  resolveArguments (Locals req msg VUndefined)
    = Locals req msg VUndefined /\
  resolveArguments (Locals req cb VUndefined)
    = Locals req VUndefined cb /\
  resolveArguments (Locals msg cb VUndefined)
    = Locals VUndefined msg cb /\
  resolveArguments (Locals req msg cb)
    = Locals req msg cb /\
  forall a : locals, resolveArguments (resolveArguments a) = resolveArguments a.
Proof.
  intros Ho Hs Hf.
  destruct req; try discriminate; destruct msg; try discriminate;
    destruct cb; try discriminate;
    repeat (split; [ reflexivity | ]); apply resolveArguments_idempotent.
Qed.

(** ** Examples *)

(** C5, as stated, fails on both branches.  Under a configuration whose
    service context has no version, a raw error is handed to
    [client.sendError] in a payload without a service version; and that
    payload, reported again as a payload of the caller, is handed over
    without one a second time. *)
Lemma payload_sent_without_version :
  exists (w1 : world) (e1 : ErrorMessage),
    reportManualError versionlessConfig samplePopulate sampleExtract
      (VError "boom") VUndefined VUndefined VUndefined emptyWorld = Done 0 w1 /\
    delivered emptyWorld w1 = [(0, e1)] /\
    serviceVersion e1 = None /\ ~ servicePresent e1 /\
    exists (w2 : world) (e2 : ErrorMessage),
      reportManualError versionlessConfig samplePopulate sampleExtract
        (VErrorMessage 0) VUndefined VUndefined VUndefined w1 = Done 0 w2 /\
      delivered w1 w2 = [(0, e2)] /\
      serviceVersion e2 = None /\ ~ servicePresent e2.
Proof.
  eexists _, _. split; [ vm_compute; reflexivity | ].
  split; [ vm_compute; reflexivity | ].
  split; [ reflexivity | ].
  split; [ intros [_ [v Hv]]; discriminate Hv | ].
  eexists _, _. split; [ vm_compute; reflexivity | ].
  split; [ vm_compute; reflexivity | ].
  split; [ reflexivity | ].
  intros [_ [v Hv]]. discriminate Hv.
Qed.

(** C9, as stated, fails: a number in the callback slot is not treated as
    absent, [client.sendError] receives it, and the invocation differs from
    the one without a callback. *)
Lemma number_callback_reaches_client :
  (exists w' : world,
     sampleReport (VError "boom") (VObject 1) (VString "m") (VNumber 5)
       emptyWorld = Done 0 w' /\
     sendErrorCalls (emitted emptyWorld w') = [(0, VNumber 5)]) /\
  sampleReport (VError "boom") (VObject 1) (VString "m") (VNumber 5) emptyWorld
    <> sampleReport (VError "boom") (VObject 1) (VString "m") VUndefined emptyWorld.
Proof.
  split.
  - eexists. split; vm_compute; reflexivity.
  - intros H. apply (f_equal (fun r => events (world_of r))) in H.
    vm_compute in H. discriminate H.
Qed.

Lemma resolveArguments_three_rules_witness :
  resolveArguments (Locals (VString "m") (VFunction 2) VUndefined)
    = Locals VUndefined (VString "m") (VFunction 2) /\
  resolves (Locals (VString "m") (VFunction 2) VUndefined)
           (Locals VUndefined (VString "m") (VFunction 2)).
Proof.
  split; [ reflexivity | ].
  apply (proj1 (resolveArguments_three_rules sampleConfig samplePopulate
                  sampleExtract (VError "boom")
                  (VString "m") (VFunction 2) VUndefined emptyWorld)).
  reflexivity.
Defined.

Lemma marker_appended_once_witness :
  heap (worldWith builtPayload) !! 7 = Some builtPayload /\
  _autoGeneratedStackTrace builtPayload = Some "S" /\
  truthy (_autoGeneratedStackTrace builtPayload) = true /\
  exists (w1 : world) (e1 : ErrorMessage),
    sampleReport (VErrorMessage 7) (VObject 1) VUndefined (VFunction 2)
      (worldWith builtPayload) = Done 7 w1 /\
    heap w1 !! 7 = Some e1 /\
    _autoGeneratedStackTrace e1 = None /\
    message e1 = "M" +:+ newline +:+ "S" /\
    exists (w2 : world) (e2 : ErrorMessage),
      sampleReport (VErrorMessage 7) VUndefined VUndefined VUndefined w1
        = Done 7 w2 /\
      heap w2 !! 7 = Some e2 /\
      _autoGeneratedStackTrace e2 = None /\
      message e2 = message e1.
Proof.
  split; [ reflexivity | ]. split; [ reflexivity | ]. split; [ reflexivity | ].
  apply (marker_appended_once sampleConfig samplePopulate sampleExtract
           7 builtPayload "S" (VObject 1) VUndefined (VFunction 2)
           VUndefined VUndefined VUndefined (worldWith builtPayload));
    reflexivity.
Defined.

Lemma override_is_final_witness :
  additionalMessage
    (resolveArguments (Locals (VString "override") VUndefined VUndefined))
    = VString "override" /\
  exists (w' : world) (e' : ErrorMessage),
    sampleReport (VErrorMessage 7) (VString "override") VUndefined VUndefined
      (worldWith builtPayload) = Done 7 w' /\
    delivered (worldWith builtPayload) w' = [(7, e')] /\
    heap w' !! 7 = Some e' /\
    message e' = "override" /\
    (truthy (_autoGeneratedStackTrace builtPayload) = true ->
     _autoGeneratedStackTrace e' = None).
Proof.
  split; [ reflexivity | ].
  apply (proj2 (override_is_final sampleConfig samplePopulate sampleExtract
                  (VErrorMessage 7) (VString "override") VUndefined VUndefined
                  (worldWith builtPayload) "override" eq_refl)
               7 builtPayload eq_refl eq_refl).
Defined.

Lemma returned_payload_is_sent_witness :
  rawRun = Done 0 (world_of rawRun) /\
  is_Some (heap (world_of rawRun) !! 0) /\
  exists cb : value,
    sendErrorCalls (emitted emptyWorld (world_of rawRun)) = [(0, cb)].
Proof.
  split; [ vm_compute; reflexivity | ].
  apply (returned_payload_is_sent sampleConfig samplePopulate sampleExtract
           (VError "boom") (VObject 1) (VString "m") (VFunction 2)
           emptyWorld (world_of rawRun) 0).
  vm_compute; reflexivity.
Defined.

Lemma service_context_at_dispatch_witness :
  (forall v e e', samplePopulate v e = Some e' ->
     serviceName e' = serviceName e /\ serviceVersion e' = serviceVersion e) /\
  rawRun = Done 0 (world_of rawRun) /\
  exists e' : ErrorMessage,
    delivered emptyWorld (world_of rawRun) = [(0, e')] /\
    serviceName e' = Some "node" /\
    serviceVersion e' = Some "1.0" /\
    servicePresent e'.
Proof.
  assert (Hframe : forall v e e', samplePopulate v e = Some e' ->
            serviceName e' = serviceName e /\ serviceVersion e' = serviceVersion e).
  { intros v e e'. destruct v; simpl; intros H; inversion H; subst; split; reflexivity. }
  split; [ exact Hframe | ].
  split; [ vm_compute; reflexivity | ].
  destruct (service_context_at_dispatch sampleConfig samplePopulate sampleExtract
              (VError "boom") (VObject 1) (VString "m") (VFunction 2)
              emptyWorld (world_of rawRun) 0 Hframe)
    as (e' & Hd & _ & Hraw & _).
  - vm_compute; reflexivity.
  - destruct (Hraw eq_refl) as (_ & _ & _ & Hn & Hv & Hp).
    exists e'. split; [ exact Hd | ]. split; [ exact Hn | ].
    split; [ exact Hv | ].
    apply Hp. split; eexists; reflexivity.
Defined.

Lemma request_merged_witness :
  prebuiltRun = Done 7 (world_of prebuiltRun) /\
  exists e' : ErrorMessage,
    heap (world_of prebuiltRun) !! 7 = Some e' /\
    httpRequest e' !! "method" = Some (VString "GET") /\
    httpRequest e' !! "url" = Some (VString "/x").
Proof.
  split; [ vm_compute; reflexivity | ].
  destruct (request_merged sampleConfig samplePopulate sampleExtract
              (VErrorMessage 7) (VObject 1) VUndefined VUndefined
              (worldWith builtPayload) (world_of prebuiltRun) 7)
    as (e1 & e' & He' & _ & _ & Hmerge & _).
  - vm_compute; reflexivity.
  - exists e'. split; [ exact He' | ].
    split; [ exact (Hmerge eq_refl "method") | exact (Hmerge eq_refl "url") ].
Defined.

Lemma hand_built_warns_once_witness :
  heap (worldWith handBuiltPayload) !! 7 = Some handBuiltPayload /\
  truthy (_autoGeneratedStackTrace handBuiltPayload) = false /\
  exists w' : world,
    sampleReport (VErrorMessage 7) VUndefined VUndefined (VFunction 2)
      (worldWith handBuiltPayload) = Done 7 w' /\
    emitted (worldWith handBuiltPayload) w' =
      [LoggerWarn (missingStackTraceWarning "by hand");
       ClientSendError 7 (VFunction 2)].
Proof.
  split; [ reflexivity | ]. split; [ reflexivity | ].
  apply (proj2 (hand_built_warns_once sampleConfig samplePopulate sampleExtract
                  (VErrorMessage 7) VUndefined VUndefined (VFunction 2)
                  (worldWith handBuiltPayload))
               7 handBuiltPayload eq_refl eq_refl eq_refl).
Defined.

Lemma call_shapes_resolved_witness :
  isObject (VObject 1) = true /\ isString (VString "m") = true /\
  isFunction (VFunction 2) = true /\
  resolveArguments (Locals (VString "m") (VFunction 2) VUndefined)
    = Locals VUndefined (VString "m") (VFunction 2) /\
  resolveArguments (Locals (VObject 1) (VFunction 2) VUndefined)
    = Locals (VObject 1) VUndefined (VFunction 2).
Proof.
  split; [ reflexivity | ]. split; [ reflexivity | ]. split; [ reflexivity | ].
  destruct (call_shapes_resolved (VObject 1) (VString "m") (VFunction 2)
              eq_refl eq_refl eq_refl)
    as (_ & _ & _ & _ & _ & H6 & H7 & _).
  split; [ exact H7 | exact H6 ].
Defined.

Lemma malformed_optionals_witness :
  isString (VNumber 5) = false /\ isFunction (VNumber 5) = false /\
  isObject (VNumber 5) = false /\
  sampleReport (VError "boom") (VNumber 5) (VString "m") (VFunction 2) emptyWorld
    = sampleReport (VError "boom") VUndefined (VString "m") (VFunction 2) emptyWorld.
Proof.
  split; [ reflexivity | ]. split; [ reflexivity | ]. split; [ reflexivity | ].
  apply (proj1 (proj2 (malformed_optionals sampleConfig samplePopulate
                         sampleExtract (VError "boom") (VNumber 5)
                         (VString "m") (VFunction 2) emptyWorld)));
    reflexivity.
Defined.

Lemma sendError_exactly_once_witness :
  rawRun = Done 0 (world_of rawRun) /\
  sendErrorCalls (emitted emptyWorld (world_of rawRun)) = [(0, VFunction 2)].
Proof.
  split; [ vm_compute; reflexivity | ].
  apply (proj1 (sendError_exactly_once sampleConfig samplePopulate sampleExtract
                  (VError "boom") (VObject 1) (VString "m") (VFunction 2)
                  emptyWorld) 0 (world_of rawRun)).
  vm_compute; reflexivity.
Defined.

(** ** Further properties of the handler *)

Lemma emitted_events (w w' : world) (evs : list event) :
  events w' = (events w ++ evs)%list -> emitted w w' = evs.
Proof. intros H. unfold emitted. rewrite H. apply drop_app_length. Qed.

(** X1: after the resolution the request slot holds neither a string nor a
    callable and the message slot no callable; every slot holds [undefined]
    or one of the caller's three values, and the callback slot always one of
    the three. *)
Theorem resolved_slots_invariant (a : locals) :
  isString (request (resolveArguments a)) = false /\
  isFunction (request (resolveArguments a)) = false /\
  isFunction (additionalMessage (resolveArguments a)) = false /\
  (request (resolveArguments a) = VUndefined \/
   request (resolveArguments a) = request a) /\
  (additionalMessage (resolveArguments a) = VUndefined \/
   additionalMessage (resolveArguments a) = additionalMessage a \/
   additionalMessage (resolveArguments a) = request a) /\
  (callback (resolveArguments a) = callback a \/
   callback (resolveArguments a) = additionalMessage a \/
   callback (resolveArguments a) = request a).
Proof.
  destruct (resolveArguments_request a) as [Hs Hf].
  pose proof (resolveArguments_additionalMessage a) as Hm.
  do 3 (split; [ assumption | ]).
  destruct a as [r m c].
  unfold resolveArguments, shiftRequest, shiftAdditionalMessage. simpl.
  destruct r, m; simpl; auto.
Qed.

Lemma finalPayload_idempotent (x : value -> gmap string value) (a : locals)
    (e : ErrorMessage) :
  finalPayload x a (finalPayload x a e) = finalPayload x a e.
Proof.
  destruct e as [sn sv msg mk h u].
  unfold finalPayload, overrideMessage, mergeRequest.
  destruct (isObject (request a)); destruct (additionalMessage a);
    unfold setMessage, consumeRequestInformation; simpl;
    rewrite ?(assoc (∪)), ?(idemp (∪)); reflexivity.
Qed.

Lemma consumeMarker_final (x : value -> gmap string value) (a : locals)
    (e : ErrorMessage) :
  consumeMarker (finalPayload x a (consumeMarker e)) =
    finalPayload x a (consumeMarker e).
Proof.
  apply consumeMarker_falsy. rewrite finalPayload_marker.
  unfold consumeMarker. destruct (truthy (_autoGeneratedStackTrace e)) eqn:Ht;
    [ reflexivity | exact Ht ].
Qed.

Section more_facts.

Variable config : Configuration.
Variable populateErrorMessage : value -> ErrorMessage -> option ErrorMessage.
Variable manualRequestInformationExtractor : value -> gmap string value.

Local Abbreviation report :=
  (reportManualError config populateErrorMessage
     manualRequestInformationExtractor).
Local Abbreviation final := (finalPayload manualRequestInformationExtractor).

Lemma report_raised_inv (err r m c : value) (w w' : world) :
  report err r m c w = Raised w' ->
  instanceofErrorMessage err w = Done None w /\
  w' = World (<[fresh (dom (heap w)) := freshPayload config]> (heap w))
             (events w) (dispatched w).
Proof.
  intros Hr.
  destruct (instanceof_cases err w) as [(l0 & e & -> & He & _) | Hi].
  - by rewrite (report_prebuilt _ _ _ _ _ _ _ _ _ He) in Hr.
  - split; [ done | ].
    rewrite (report_raw _ _ _ _ _ _ _ _ Hi) in Hr. simpl in Hr.
    destruct (populateErrorMessage err (freshPayload config)); [ done | ].
    by injection Hr as <-.
Qed.

(** X2: in the shifted call shapes the trailing arguments are dropped: with a
    string request the fourth argument, with a callable request the third and
    the fourth, with a callable [additionalMessage] (the request being
    neither) the fourth. *)
Theorem trailing_arguments_dropped (err r m c : value) (w : world) :
  (isString r = true ->
   report err r m c w = report err VUndefined r m w) /\
  (isFunction r = true ->
   report err r m c w = report err VUndefined VUndefined r w) /\
  (isString r = false -> isFunction r = false -> isFunction m = true ->
   report err r m c w = report err r VUndefined m w).
Proof.
  unfold reportManualError. split; [ | split ].
  - intros Hs. destruct r; try discriminate. by destruct m.
  - intros Hf. by destruct r.
  - intros Hs Hf Hm. destruct m; try discriminate. by destruct r.
Qed.

(** X3: on a caller's payload the handler works in place: it returns the
    reference it was given, creates no instance, leaves every other instance
    of the store as it was, and does not touch the user of the payload. *)
Theorem payload_reported_in_place (l : loc) (e : ErrorMessage) (r m c : value)
    (w : world) :
  heap w !! l = Some e ->
  exists (w' : world) (e' : ErrorMessage),
    report (VErrorMessage l) r m c w = Done l w' /\
    dom (heap w') = dom (heap w) /\
    (forall l' : loc, l' <> l -> heap w' !! l' = heap w !! l') /\
    heap w' !! l = Some e' /\
    user e' = user e.
Proof.
  intros He. eexists _, _. split; [ by apply report_prebuilt | ]. simpl.
  split; [ apply dom_insert_lookup_L; eauto | ].
  split; [ intros l' Hl'; by apply lookup_insert_ne | ].
  split; [ apply lookup_insert_eq | ].
  unfold finalPayload, overrideMessage, mergeRequest, consumeMarker.
  destruct (isObject _); destruct (additionalMessage _);
    by destruct (truthy _).
Qed.

(** X4: on anything that is not a payload of the store, a returning invocation
    has made a new instance: the reference it returns was not in use, the
    store has grown by exactly that reference, the instances it held are
    unchanged, and the only call on the collaborators is the one
    [client.sendError]: no warning is logged for a raw error. *)
Theorem raw_error_gets_new_instance (err r m c : value) (w w' : world)
    (l : loc) :
  instanceofErrorMessage err w = Done None w ->
  report err r m c w = Done l w' ->
  (l ∉ dom (heap w)) /\
  dom (heap w') = {[ l ]} ∪ dom (heap w) /\
  (forall (l' : loc) (e : ErrorMessage),
     heap w !! l' = Some e -> heap w' !! l' = Some e) /\
  emitted w w' =
    [ClientSendError l (callback (resolveArguments (Locals r m c)))].
Proof.
  intros Hi Hr. rewrite (report_raw _ _ _ _ _ _ _ _ Hi) in Hr. simpl in Hr.
  destruct (populateErrorMessage err (freshPayload config)); [ | done ].
  injection Hr as <- <-. simpl.
  assert (Hfresh : fresh (dom (heap w)) ∉ dom (heap w)) by apply is_fresh.
  split; [ done | ].
  split; [ apply dom_insert_L | ].
  split; [ | by rewrite emitted_app ].
  intros l' e0 He. rewrite lookup_insert_ne; [ done | ].
  intros <-. apply Hfresh. apply elem_of_dom. eauto.
Qed.

(** X5: when an invocation raises, nothing has been logged and nothing sent, and
    the instances the store held are unchanged; the payload the handler had
    made for the populator stays behind in the store. *)
Theorem raise_leaves_no_call (err r m c : value) (w w' : world) :
  report err r m c w = Raised w' ->
  events w' = events w /\
  (forall (l' : loc) (e : ErrorMessage),
     heap w !! l' = Some e -> heap w' !! l' = Some e) /\
  heap w' !! fresh (dom (heap w)) = Some (freshPayload config) /\
  fresh (dom (heap w)) ∉ dom (heap w).
Proof.
  intros Hr. apply report_raised_inv in Hr as [_ ->]. simpl.
  assert (Hfresh : fresh (dom (heap w)) ∉ dom (heap w)) by apply is_fresh.
  split; [ done | ].
  split; [ | split; [ apply lookup_insert_eq | done ] ].
  intros l' e0 He. rewrite lookup_insert_ne; [ done | ].
  intros <-. apply Hfresh. apply elem_of_dom. eauto.
Qed.

(** X6: a marker that is the empty string counts as no marker (line 82 tests
    truthiness): the warning is logged, nothing is appended to the message,
    and the property stays on the instance. *)
Theorem empty_marker_is_no_marker (l : loc) (e : ErrorMessage) (r m c : value)
    (w : world) :
  heap w !! l = Some e ->
  _autoGeneratedStackTrace e = Some "" ->
  exists (w' : world) (e' : ErrorMessage),
    report (VErrorMessage l) r m c w = Done l w' /\
    emitted w w' =
      [LoggerWarn (missingStackTraceWarning (message e));
       ClientSendError l (callback (resolveArguments (Locals r m c)))] /\
    heap w' !! l = Some e' /\
    _autoGeneratedStackTrace e' = Some "" /\
    message e' =
      match additionalMessage (resolveArguments (Locals r m c)) with
      | VString s => s
      | _ => message e
      end.
Proof.
  intros He Hm.
  assert (Ht : truthy (_autoGeneratedStackTrace e) = false) by by rewrite Hm.
  eexists _, _. split; [ by apply report_prebuilt | ].
  split; [ rewrite emitted_app; unfold markerEvents; by rewrite Ht | ].
  split; [ apply lookup_insert_eq | ].
  by rewrite finalPayload_marker, finalPayload_message,
    (consumeMarker_falsy e Ht).
Qed.

(** X7: reporting twice a payload that carries a construction-site stack trace:
    the first invocation logs nothing; the second, the marker being gone,
    logs the missing-stack-trace warning, quoting the message the first pass
    left, before it sends the payload again. *)
Theorem second_report_warns (l : loc) (e : ErrorMessage)
    (r m c r2 m2 c2 : value) (w : world) :
  heap w !! l = Some e ->
  truthy (_autoGeneratedStackTrace e) = true ->
  exists (w1 w2 : world) (e1 : ErrorMessage),
    report (VErrorMessage l) r m c w = Done l w1 /\
    emitted w w1 =
      [ClientSendError l (callback (resolveArguments (Locals r m c)))] /\
    heap w1 !! l = Some e1 /\
    report (VErrorMessage l) r2 m2 c2 w1 = Done l w2 /\
    emitted w1 w2 =
      [LoggerWarn (missingStackTraceWarning (message e1));
       ClientSendError l (callback (resolveArguments (Locals r2 m2 c2)))].
Proof.
  intros He Ht.
  assert (Hm1 : truthy (_autoGeneratedStackTrace
                  (final (resolveArguments (Locals r m c)) (consumeMarker e)))
                = false).
  { rewrite finalPayload_marker. unfold consumeMarker. by rewrite Ht. }
  eexists _, _, _. split; [ by apply report_prebuilt | ].
  split; [ rewrite emitted_app; unfold markerEvents; by rewrite Ht | ].
  split; [ apply lookup_insert_eq | ].
  split; [ apply report_prebuilt; apply lookup_insert_eq | ].
  rewrite emitted_app. unfold markerEvents. by rewrite Hm1.
Qed.

(** X8: reporting the same payload again with the same arguments leaves the
    store exactly as the first invocation left it. *)
Theorem repeated_report_is_stable (l : loc) (e : ErrorMessage) (r m c : value)
    (w : world) :
  heap w !! l = Some e ->
  exists (w1 w2 : world),
    report (VErrorMessage l) r m c w = Done l w1 /\
    report (VErrorMessage l) r m c w1 = Done l w2 /\
    heap w2 = heap w1.
Proof.
  intros He. eexists _, _. split; [ by apply report_prebuilt | ].
  split; [ apply report_prebuilt; apply lookup_insert_eq | ].
  simpl. by rewrite consumeMarker_final, finalPayload_idempotent,
    insert_insert_eq.
Qed.

(** X9: invocations on two distinct payloads of the store do not interfere: in
    either order they return, they leave the same store, and each payload
    ends as it does when it is reported alone. *)
Theorem distinct_payloads_do_not_interfere (l1 l2 : loc) (e1 e2 : ErrorMessage)
    (r1 m1 c1 r2 m2 c2 : value) (w : world) :
  l1 <> l2 ->
  heap w !! l1 = Some e1 ->
  heap w !! l2 = Some e2 ->
  exists (w1 w2 w12 w21 : world),
    report (VErrorMessage l1) r1 m1 c1 w = Done l1 w1 /\
    report (VErrorMessage l2) r2 m2 c2 w = Done l2 w2 /\
    report (VErrorMessage l2) r2 m2 c2 w1 = Done l2 w12 /\
    report (VErrorMessage l1) r1 m1 c1 w2 = Done l1 w21 /\
    heap w12 = heap w21 /\
    heap w12 !! l1 = heap w1 !! l1 /\
    heap w12 !! l2 = heap w2 !! l2.
Proof.
  intros Hne H1 H2. eexists _, _, _, _.
  split; [ by apply report_prebuilt | ].
  split; [ by apply report_prebuilt | ].
  split; [ apply report_prebuilt; simpl; by rewrite lookup_insert_ne | ].
  split; [ apply report_prebuilt; simpl; by rewrite lookup_insert_ne | ].
  simpl. split; [ by apply insert_insert_ne | ].
  split.
  - by rewrite lookup_insert_ne, !lookup_insert_eq.
  - by rewrite !lookup_insert_eq.
Qed.

End more_facts.

(** ** The unhandled-rejection listener *)

Lemma instanceof_none_heap (v : value) (w w0 : world) :
  heap w0 = heap w ->
  instanceofErrorMessage v w = Done None w ->
  instanceofErrorMessage v w0 = Done None w0.
Proof.
  intros Hh. destruct v; simpl; try done. rewrite Hh.
  by destruct (heap w !! l).
Qed.

Section listener_facts.

Variable config : Configuration.
Variable populateErrorMessage : value -> ErrorMessage -> option ErrorMessage.
Variable manualRequestInformationExtractor : value -> gmap string value.
Variable textOf : value -> option string.

Local Abbreviation report :=
  (reportManualError config populateErrorMessage
     manualRequestInformationExtractor).
Local Abbreviation listener :=
  (onUnhandledRejection config populateErrorMessage
     manualRequestInformationExtractor textOf).
Local Abbreviation warned w text :=
  (World (heap w) (events w ++ [LoggerWarn (unhandledRejectionWarning text)])
     (dispatched w)).

Lemma listener_unfold (reason : value) (w : world) :
  listener reason w =
    match toStringJS textOf reason with
    | Some text =>
        match report reason VUndefined VUndefined VUndefined (warned w text) with
        | Done _ w' => Done tt w'
        | Raised w' => Raised w'
        end
    | None => Raised w
    end.
Proof.
  unfold onUnhandledRejection, mbind, M_bind, warn, raise.
  destruct (toStringJS textOf reason); [ | done ].
  by destruct (reportManualError _ _ _ _ _ _ _ _).
Qed.

(** X10: a rejection the listener gets through: the reason had a string
    conversion, and the first thing the listener did is log the rejection
    warning with that string; after that it handed exactly one payload to
    [client.sendError], without a callback; no request is merged and no
    message overridden, so a raw reason is sent as the populator transcribed
    it and a payload of the store as its marker handling left it. *)
Theorem listener_reports_reason (reason : value) (w w' : world) :
  listener reason w = Done tt w' ->
  exists (text : string) (l : loc) (rest : list event) (e' : ErrorMessage),
    toStringJS textOf reason = Some text /\
    emitted w w' = LoggerWarn (unhandledRejectionWarning text) :: rest /\
    sendErrorCalls rest = [(l, VUndefined)] /\
    heap w' !! l = Some e' /\
    (instanceofErrorMessage reason w = Done None w ->
     populateErrorMessage reason (freshPayload config) = Some e') /\
    (forall (l0 : loc) (e : ErrorMessage),
       reason = VErrorMessage l0 -> heap w !! l0 = Some e ->
       l0 = l /\ e' = consumeMarker e).
Proof.
  rewrite listener_unfold. intros Hl.
  destruct (toStringJS textOf reason) as [text|]; [ | done ].
  destruct (report reason VUndefined VUndefined VUndefined (warned w text))
    as [l w1|w1] eqn:Hr; [ | done ].
  injection Hl as <-.
  apply report_done_inv in Hr as (e1 & evs & -> & Hc). simpl in *.
  exists text, l, (evs ++ [ClientSendError l VUndefined])%list, e1.
  split; [ done | ].
  split; [ apply emitted_events; simpl; by rewrite <- app_assoc | ].
  split.
  { unfold sendErrorCalls. rewrite omap_app. simpl.
    destruct Hc as [(e & _ & _ & _ & ->) | (_ & _ & -> & _)]; [ | done ].
    unfold markerEvents. by destruct (truthy _). }
  split; [ apply lookup_insert_eq | ].
  destruct Hc as [(e & -> & He & -> & _) | (Hi & Hp & _ & _)].
  - split.
    + intros Hi. simpl in Hi. by rewrite He in Hi.
    + intros l0 e0 [= <-] He0. rewrite He in He0. by injection He0 as <-.
  - split; [ done | ].
    intros l0 e0 -> He0. simpl in Hi. by rewrite He0 in Hi.
Qed.

(** X11: the listener raises in exactly two cases.  When the reason has no
    string conversion (a symbol, an object without one), it raises while it
    builds the warning, before any call: nothing is logged and nothing sent.
    When the reason has one, is not a payload of the store and the populator
    raises on it, the rejection warning, which says the rejection has been
    reported, has been logged and is the only call made: nothing was
    sent. *)
Theorem listener_raises_after_warning (reason : value) (w : world) :
  ((exists w', listener reason w = Raised w') <->
   toStringJS textOf reason = None \/
   (instanceofErrorMessage reason w = Done None w /\
    populateErrorMessage reason (freshPayload config) = None)) /\
  (forall w' : world,
     listener reason w = Raised w' ->
     toStringJS textOf reason = None ->
     emitted w w' = [] /\ heap w' = heap w) /\
  (forall (w' : world) (text : string),
     listener reason w = Raised w' ->
     toStringJS textOf reason = Some text ->
     emitted w w' = [LoggerWarn (unhandledRejectionWarning text)] /\
     sendErrorCalls (emitted w w') = []).
Proof.
  rewrite listener_unfold.
  destruct (toStringJS textOf reason) as [text|] eqn:Ht.
  - split; [ | split ].
    + split.
      * intros [w' Hl]. right.
        destruct (report reason VUndefined VUndefined VUndefined (warned w text))
          as [l w1|w1] eqn:Hr; [ done | ].
        destruct (proj1 (report_raised_iff _ _ _ _ _ _ _ _) (ex_intro _ _ Hr))
          as [Hi Hp].
        split; [ | done ]. by apply (instanceof_none_heap _ (warned w text)).
      * intros [Hn | [Hi Hp]]; [ done | ].
        destruct (proj2 (report_raised_iff config populateErrorMessage
                           manualRequestInformationExtractor reason
                           VUndefined VUndefined VUndefined (warned w text)))
          as [w1 Hr].
        { split; [ | done ]. by apply (instanceof_none_heap _ w). }
        rewrite Hr. eauto.
    + intros w' _ Hn. done.
    + intros w' text' Hl [= <-].
      destruct (report reason VUndefined VUndefined VUndefined (warned w text))
        as [l w1|w1] eqn:Hr; [ done | ].
      injection Hl as <-.
      apply report_raised_inv in Hr as [_ ->].
      by rewrite (emitted_events w _
                    [LoggerWarn (unhandledRejectionWarning text)]).
  - split; [ | split ].
    + split; [ by left | eauto ].
    + intros w' [= <-] _. split; [ | done ].
      unfold emitted. apply drop_all.
    + intros w' text' _ Hn. done.
Qed.

(** X12: a rejection whose reason is a payload of the store without a
    construction-site stack trace, and which has a string conversion, is
    logged twice, once by the listener and once by the handler, before the
    payload is sent. *)
Theorem listener_warns_twice (l : loc) (e : ErrorMessage) (w : world)
    (text : string) :
  heap w !! l = Some e ->
  truthy (_autoGeneratedStackTrace e) = false ->
  textOf (VErrorMessage l) = Some text ->
  exists w' : world,
    listener (VErrorMessage l) w = Done tt w' /\
    emitted w w' =
      [LoggerWarn (unhandledRejectionWarning text);
       LoggerWarn (missingStackTraceWarning (message e));
       ClientSendError l VUndefined].
Proof.
  intros He Ht Htext. rewrite listener_unfold. simpl. rewrite Htext.
  rewrite (report_prebuilt _ _ _ l e) by exact He.
  eexists. split; [ reflexivity | ].
  apply emitted_events. simpl. unfold markerEvents. rewrite Ht.
  by rewrite <- app_assoc.
Qed.

End listener_facts.

(** ** Examples for the further properties *)

Lemma trailing_arguments_dropped_witness :
  isString (VString "m") = true /\
  sampleReport (VError "boom") (VString "m") VUndefined (VFunction 2) emptyWorld
    = sampleReport (VError "boom") VUndefined (VString "m") VUndefined emptyWorld.
Proof.
  split; [ reflexivity | ].
  apply (proj1 (trailing_arguments_dropped sampleConfig samplePopulate
                  sampleExtract (VError "boom") (VString "m") VUndefined
                  (VFunction 2) emptyWorld)).
  reflexivity.
Defined.

Lemma payload_reported_in_place_witness :
  heap twoPayloads !! 7 = Some builtPayload /\
  exists (w' : world) (e' : ErrorMessage),
    sampleReport (VErrorMessage 7) (VObject 1) VUndefined VUndefined twoPayloads
      = Done 7 w' /\
    dom (heap w') = dom (heap twoPayloads) /\
    (forall l' : loc, l' <> 7 -> heap w' !! l' = heap twoPayloads !! l') /\
    heap w' !! 7 = Some e' /\
    user e' = user builtPayload.
Proof.
  split; [ reflexivity | ].
  apply (payload_reported_in_place sampleConfig samplePopulate sampleExtract
           7 builtPayload (VObject 1) VUndefined VUndefined twoPayloads).
  reflexivity.
Defined.

Lemma raw_error_gets_new_instance_witness :
  instanceofErrorMessage (VError "boom") twoPayloads = Done None twoPayloads /\
  sampleReport (VError "boom") VUndefined VUndefined VUndefined twoPayloads
    = Done 10 (world_of (sampleReport (VError "boom") VUndefined VUndefined
                          VUndefined twoPayloads)) /\
  10 ∉ dom (heap twoPayloads).
Proof.
  split; [ reflexivity | ].
  split; [ vm_compute; reflexivity | ].
  apply (raw_error_gets_new_instance sampleConfig samplePopulate sampleExtract
           (VError "boom") VUndefined VUndefined VUndefined twoPayloads
           (world_of (sampleReport (VError "boom") VUndefined VUndefined
                        VUndefined twoPayloads)) 10);
    [ reflexivity | vm_compute; reflexivity ].
Defined.

Lemma raise_leaves_no_call_witness :
  sampleReport VUndefined (VObject 1) (VString "m") (VFunction 2) twoPayloads
    = Raised (world_of (sampleReport VUndefined (VObject 1) (VString "m")
                          (VFunction 2) twoPayloads)) /\
  events (world_of (sampleReport VUndefined (VObject 1) (VString "m")
                      (VFunction 2) twoPayloads)) = events twoPayloads.
Proof.
  split; [ vm_compute; reflexivity | ].
  apply (raise_leaves_no_call sampleConfig samplePopulate sampleExtract
           VUndefined (VObject 1) (VString "m") (VFunction 2) twoPayloads).
  vm_compute; reflexivity.
Defined.

Lemma empty_marker_is_no_marker_witness :
  heap (worldWith emptyMarkerPayload) !! 7 = Some emptyMarkerPayload /\
  _autoGeneratedStackTrace emptyMarkerPayload = Some "" /\
  exists (w' : world) (e' : ErrorMessage),
    sampleReport (VErrorMessage 7) VUndefined VUndefined VUndefined
      (worldWith emptyMarkerPayload) = Done 7 w' /\
    emitted (worldWith emptyMarkerPayload) w' =
      [LoggerWarn (missingStackTraceWarning "M"); ClientSendError 7 VUndefined] /\
    heap w' !! 7 = Some e' /\
    _autoGeneratedStackTrace e' = Some "" /\
    message e' = "M".
Proof.
  split; [ reflexivity | ]. split; [ reflexivity | ].
  apply (empty_marker_is_no_marker sampleConfig samplePopulate sampleExtract
           7 emptyMarkerPayload VUndefined VUndefined VUndefined
           (worldWith emptyMarkerPayload));
    reflexivity.
Defined.

Lemma second_report_warns_witness :
  heap (worldWith builtPayload) !! 7 = Some builtPayload /\
  truthy (_autoGeneratedStackTrace builtPayload) = true /\
  exists (w1 w2 : world) (e1 : ErrorMessage),
    sampleReport (VErrorMessage 7) VUndefined VUndefined VUndefined
      (worldWith builtPayload) = Done 7 w1 /\
    emitted (worldWith builtPayload) w1 = [ClientSendError 7 VUndefined] /\
    heap w1 !! 7 = Some e1 /\
    sampleReport (VErrorMessage 7) VUndefined VUndefined VUndefined w1
      = Done 7 w2 /\
    emitted w1 w2 =
      [LoggerWarn (missingStackTraceWarning (message e1));
       ClientSendError 7 VUndefined].
Proof.
  split; [ reflexivity | ]. split; [ reflexivity | ].
  apply (second_report_warns sampleConfig samplePopulate sampleExtract
           7 builtPayload VUndefined VUndefined VUndefined
           VUndefined VUndefined VUndefined (worldWith builtPayload));
    reflexivity.
Defined.

Lemma repeated_report_is_stable_witness :
  heap (worldWith builtPayload) !! 7 = Some builtPayload /\
  exists (w1 w2 : world),
    sampleReport (VErrorMessage 7) (VObject 1) (VString "m") (VFunction 2)
      (worldWith builtPayload) = Done 7 w1 /\
    sampleReport (VErrorMessage 7) (VObject 1) (VString "m") (VFunction 2) w1
      = Done 7 w2 /\
    heap w2 = heap w1.
Proof.
  split; [ reflexivity | ].
  apply (repeated_report_is_stable sampleConfig samplePopulate sampleExtract
           7 builtPayload (VObject 1) (VString "m") (VFunction 2)
           (worldWith builtPayload)).
  reflexivity.
Defined.

Lemma distinct_payloads_do_not_interfere_witness :
  7 <> 9 /\
  heap twoPayloads !! 7 = Some builtPayload /\
  heap twoPayloads !! 9 = Some handBuiltPayload /\
  exists (w1 w2 w12 w21 : world),
    sampleReport (VErrorMessage 7) (VObject 1) VUndefined VUndefined twoPayloads
      = Done 7 w1 /\
    sampleReport (VErrorMessage 9) (VString "m") VUndefined VUndefined twoPayloads
      = Done 9 w2 /\
    sampleReport (VErrorMessage 9) (VString "m") VUndefined VUndefined w1
      = Done 9 w12 /\
    sampleReport (VErrorMessage 7) (VObject 1) VUndefined VUndefined w2
      = Done 7 w21 /\
    heap w12 = heap w21 /\
    heap w12 !! 7 = heap w1 !! 7 /\
    heap w12 !! 9 = heap w2 !! 9.
Proof.
  split; [ lia | ]. split; [ reflexivity | ]. split; [ reflexivity | ].
  apply (distinct_payloads_do_not_interfere sampleConfig samplePopulate
           sampleExtract 7 9 builtPayload handBuiltPayload
           (VObject 1) VUndefined VUndefined
           (VString "m") VUndefined VUndefined twoPayloads);
    [ lia | reflexivity | reflexivity ].
Defined.

Lemma listener_reports_reason_witness :
  sampleListener (VError "boom") emptyWorld
    = Done tt (world_of (sampleListener (VError "boom") emptyWorld)) /\
  exists (l : loc) (rest : list event) (e' : ErrorMessage),
    emitted emptyWorld (world_of (sampleListener (VError "boom") emptyWorld)) =
      LoggerWarn (unhandledRejectionWarning "Error: boom") :: rest /\
    sendErrorCalls rest = [(l, VUndefined)] /\
    heap (world_of (sampleListener (VError "boom") emptyWorld)) !! l = Some e'.
Proof.
  split; [ vm_compute; reflexivity | ].
  destruct (listener_reports_reason sampleConfig samplePopulate sampleExtract
              sampleTextOf (VError "boom") emptyWorld
              (world_of (sampleListener (VError "boom") emptyWorld)))
    as (text & l & rest & e' & H0 & H1 & H2 & H3 & _).
  - vm_compute; reflexivity.
  - injection H0 as <-.
    exists l, rest, e'. split; [ exact H1 | ]. split; [ exact H2 | exact H3 ].
Defined.

Lemma listener_raises_after_warning_witness :
  (sampleListener VUndefined emptyWorld
     = Raised (world_of (sampleListener VUndefined emptyWorld)) /\
   toStringJS sampleTextOf VUndefined = Some "undefined" /\
   emitted emptyWorld (world_of (sampleListener VUndefined emptyWorld)) =
     [LoggerWarn (unhandledRejectionWarning "undefined")] /\
   sendErrorCalls
     (emitted emptyWorld (world_of (sampleListener VUndefined emptyWorld))) = []) /\
  (sampleListener (VSymbol 1) emptyWorld
     = Raised (world_of (sampleListener (VSymbol 1) emptyWorld)) /\
   toStringJS sampleTextOf (VSymbol 1) = None /\
   emitted emptyWorld (world_of (sampleListener (VSymbol 1) emptyWorld)) = [] /\
   heap (world_of (sampleListener (VSymbol 1) emptyWorld)) = heap emptyWorld).
Proof.
  split.
  - split; [ vm_compute; reflexivity | ]. split; [ reflexivity | ].
    apply (proj2 (proj2 (listener_raises_after_warning sampleConfig
                           samplePopulate sampleExtract sampleTextOf
                           VUndefined emptyWorld)));
      [ vm_compute; reflexivity | reflexivity ].
  - split; [ vm_compute; reflexivity | ]. split; [ reflexivity | ].
    apply (proj1 (proj2 (listener_raises_after_warning sampleConfig
                           samplePopulate sampleExtract sampleTextOf
                           (VSymbol 1) emptyWorld)));
      [ vm_compute; reflexivity | reflexivity ].
Defined.

Lemma listener_warns_twice_witness :
  heap (worldWith handBuiltPayload) !! 7 = Some handBuiltPayload /\
  truthy (_autoGeneratedStackTrace handBuiltPayload) = false /\
  sampleTextOf (VErrorMessage 7) = Some "[object Object]" /\
  exists w' : world,
    sampleListener (VErrorMessage 7) (worldWith handBuiltPayload) = Done tt w' /\
    emitted (worldWith handBuiltPayload) w' =
      [LoggerWarn (unhandledRejectionWarning "[object Object]");
       LoggerWarn (missingStackTraceWarning "by hand");
       ClientSendError 7 VUndefined].
Proof.
  split; [ reflexivity | ]. split; [ reflexivity | ]. split; [ reflexivity | ].
  apply (listener_warns_twice sampleConfig samplePopulate sampleExtract
           sampleTextOf 7 handBuiltPayload (worldWith handBuiltPayload)
           "[object Object]");
    reflexivity.
Defined.
